(** * amesh-iptables: the rule-derivation engine of [cmd/iptables/main.go]

    A shallow embedding of the Go program that derives the iptables rules
    redirecting inbound and outbound TCP traffic to APISIX, and the proofs of
    the properties its specification states about it.

    Go strings are modelled by [string], slices by [list], the mutable rule
    builder and the execution backend by an explicit world threaded through a
    small state-and-abort monad. *)

From Stdlib Require Import String Ascii List Bool Arith Lia.
Import ListNotations.
Open Scope string_scope.
Open Scope list_scope.

(** ** Go's [strings] package, as far as [main.go] uses it *)

Module strings.

(** [strings.Split(s, sep)] for a one-byte separator: the pieces of [s]
    between consecutive occurrences of [sep]; always at least one piece. *)
Fixpoint Split (s : string) (sep : ascii) : list string :=
  match s with
  | EmptyString => [EmptyString]
  | String c rest =>
      if Ascii.eqb c sep then EmptyString :: Split rest sep
      else match Split rest sep with
           | [] => [String c EmptyString]
           | piece :: pieces => String c piece :: pieces
           end
  end.

(** [strings.Join(elems, sep)]. *)
Definition Join (elems : list string) (sep : string) : string :=
  String.concat sep elems.

End strings.

Definition comma : ascii := ","%char.

(** ** The port-list normalizer: [split] and [filterEmpty] *)

(** The loop of [filterEmpty]: [filtered] grows by [append] for every
    non-empty element, in slice order. *)
Definition filterEmpty (strs : list string) : list string :=
  fold_left
    (fun filtered s => if (s =? "")%string then filtered else filtered ++ [s])
    strs [].

Definition split (s : string) : list string :=
  if (s =? "")%string then [] else filterEmpty (strings.Split s comma).

(** Vocabulary for stating what the normalizer returns. *)

Definition nonEmpty (s : string) : bool := negb (s =? "")%string.

Fixpoint commaFree (s : string) : bool :=
  match s with
  | EmptyString => true
  | String c rest => negb (Ascii.eqb c comma) && commaFree rest
  end.

(** ** The collaborators of the engine *)

Module log.

(** The logging tag every call of [main.go] passes to the builder. *)
Inductive Command := UndefinedCommand.

End log.

Module iptablesconf.

(** The fields of istio's [config.Config] that [main.go] reads or writes. *)
Record Config := {
  InboundInterceptionMode : string;
  InboundCapturePort : string;
  ProxyPort : string;
  InboundPortsInclude : string;
  InboundPortsExclude : string;
  OutboundPortsInclude : string;
  OutboundPortsExclude : string;
  ProxyUID : string;
  ProxyGID : string;
  DryRun : bool
}.

End iptablesconf.
Import iptablesconf.

Module builder.

Inductive IPVersion := IPv4 | IPv6.

(** A rule insertion: (ip-version, target-chain, table, argument-vector). *)
Record Rule := {
  ipVersion : IPVersion;
  chain : string;
  table : string;
  params : list string
}.

(** Modelled from the spec: the rule builder of istio-iptables is not part of
    this repository; it is the ordered, append-only accumulator of rule
    insertions of section 6. *)
Record IptablesBuilder := { rules : list Rule }.

Definition NewIptablesBuilder (cfg : Config) : IptablesBuilder :=
  {| rules := [] |}.

(** Modelled from the spec: [append(ipVersion, chain, table, args...)] records
    one rule insertion at the end; no validation, no error. *)
Definition AppendRuleV4 (rb : IptablesBuilder) (command : log.Command)
    (chain table : string) (params : list string) : IptablesBuilder :=
  {| rules := rules rb
       ++ [ {| ipVersion := IPv4; chain := chain; table := table;
               params := params |} ] |}.

Definition isV4 (r : Rule) : bool :=
  match ipVersion r with IPv4 => true | IPv6 => false end.

Definition commandOf (r : Rule) : list string :=
  "iptables" :: "-t" :: table r :: "-A" :: chain r :: params r.

(** Modelled from the spec: [finalize()] yields one command (program name
    plus arguments) per appended IPv4 insertion, in append order. *)
Definition BuildV4 (rb : IptablesBuilder) : list (list string) :=
  map commandOf (filter isV4 (rules rb)).

End builder.
Import builder.

Module user.

Record User := { Uid : string; Gid : string }.

End user.

Module dependencies.

(** The two execution backends behind istio's [Dependencies] interface. *)
Inductive Dependencies := StdoutStubDependencies | RealDependencies.

End dependencies.
Import dependencies.

(** ** The world the process runs in, and the monad threading it *)

(** The builder the constructor points to, what the dry-run backend has
    printed, what the real backend has been asked to execute, and the two
    facts about the host the program depends on: which commands succeed and
    which users exist. *)
Record World := {
  iptables : IptablesBuilder;
  stdout : list (list string);
  executed : list (list string);
  succeeds : list string -> bool;
  passwd : string -> option user.User
}.

Inductive Failure :=
| PanicUnknownUser (name : string)
| PanicIndexOutOfRange
| FatalCommand (cmd : list string).

Inductive Outcome (A : Type) :=
| Ok (a : A)
| Abort (f : Failure).
Arguments Ok {A} a.
Arguments Abort {A} f.

Definition M (A : Type) : Type := World -> Outcome A * World.

Definition ret {A} (a : A) : M A := fun w => (Ok a, w).

Definition bind {A B} (m : M A) (k : A -> M B) : M B :=
  fun w => match m w with
           | (Ok a, w') => k a w'
           | (Abort f, w') => (Abort f, w')
           end.

Definition abort {A} (f : Failure) : M A := fun w => (Abort f, w).

Notation "m ;; k" := (bind m (fun _ => k))
  (at level 61, right associativity).

(** [for _, x := range xs { body }]. *)
Fixpoint forRange {A} (xs : list A) (body : A -> M unit) : M unit :=
  match xs with
  | [] => ret tt
  | x :: rest => body x ;; forRange rest body
  end.

Definition withBuilder (rb : IptablesBuilder) (w : World) : World :=
  {| iptables := rb; stdout := stdout w; executed := executed w;
     succeeds := succeeds w; passwd := passwd w |}.

(** Modelled from the spec: the backends' [RunOrFail] of section 6. The
    dry-run backend renders the command and never fails; the real backend
    runs it on the host and stops the process when it fails. *)
Definition RunOrFail (d : Dependencies) (cmd : string) (args : list string)
  : M unit :=
  fun w =>
    match d with
    | StdoutStubDependencies =>
        (Ok tt,
         {| iptables := iptables w; stdout := stdout w ++ [cmd :: args];
            executed := executed w; succeeds := succeeds w;
            passwd := passwd w |})
    | RealDependencies =>
        let w' := {| iptables := iptables w; stdout := stdout w;
                     executed := executed w ++ [cmd :: args];
                     succeeds := succeeds w; passwd := passwd w |} in
        if succeeds w (cmd :: args) then (Ok tt, w')
        else (Abort (FatalCommand (cmd :: args)), w')
    end.

(** ** The engine: [iptablesConstructor] and its methods *)

Definition InboundChain := "APISIX_INBOUND".
Definition RedirectChain := "APISIX_REDIRECT".
Definition InboundRedirectChain := "APISIX_INBOUND_REDIRECT".
Definition OutputChain := "OUTPUT".
Definition PreRoutingChain := "PREROUTING".

(** The [iptables] field points to the builder held in the world. *)
Record iptablesConstructor := {
  cfg : Config;
  dep : Dependencies
}.

(** [ic.iptables.AppendRuleV4(...)]. *)
Definition AppendRuleV4 (command : log.Command) (chain table : string)
    (params : list string) : M unit :=
  fun w =>
    (Ok tt,
     withBuilder (builder.AppendRuleV4 (iptables w) command chain table params)
       w).

Definition insertSkipRules (ic : iptablesConstructor) : M unit :=
  AppendRuleV4 log.UndefinedCommand OutputChain "nat"
    ["-o"; "lo"; "!"; "-d"; "127.0.0.1/32"; "-m"; "owner"; "--uid-owner";
     ProxyUID (cfg ic); "-j"; "RETURN"] ;;
  AppendRuleV4 log.UndefinedCommand OutputChain "nat"
    ["-m"; "owner"; "--gid-owner"; ProxyGID (cfg ic); "-j"; "RETURN"].

Definition insertInboundRules (ic : iptablesConstructor) : M unit :=
  if (InboundPortsInclude (cfg ic) =? "")%string then ret tt
  else
    AppendRuleV4 log.UndefinedCommand PreRoutingChain "nat"
      ["-p"; "tcp"; "-j"; InboundChain] ;;
    if (InboundPortsInclude (cfg ic) =? "*")%string then
      AppendRuleV4 log.UndefinedCommand InboundChain "nat"
        ["-p"; "tcp"; "--dport"; "22"; "-j"; "RETURN"] ;;
      (if negb (InboundPortsExclude (cfg ic) =? "")%string then
         forRange (split (InboundPortsExclude (cfg ic))) (fun port =>
           AppendRuleV4 log.UndefinedCommand InboundChain "nat"
             ["-p"; "tcp"; "--dport"; port; "-j"; "RETURN"])
       else ret tt) ;;
      AppendRuleV4 log.UndefinedCommand InboundChain "nat"
        ["-p"; "tcp"; "-j"; InboundRedirectChain]
    else
      forRange (split (InboundPortsInclude (cfg ic))) (fun port =>
        AppendRuleV4 log.UndefinedCommand InboundChain "nat"
          ["-p"; "tcp"; "--dport"; port; "-j"; InboundRedirectChain]).

Definition insertOutboundRules (ic : iptablesConstructor) : M unit :=
  if (OutboundPortsInclude (cfg ic) =? "")%string then ret tt
  else if (OutboundPortsInclude (cfg ic) =? "*")%string then
    (if negb (OutboundPortsExclude (cfg ic) =? "")%string then
       forRange (split (OutboundPortsExclude (cfg ic))) (fun port =>
         AppendRuleV4 log.UndefinedCommand OutputChain "nat"
           ["-p"; "tcp"; "--dport"; port; "-j"; "RETURN"])
     else ret tt) ;;
    AppendRuleV4 log.UndefinedCommand OutputChain "nat"
      ["-p"; "tcp"; "-j"; RedirectChain]
  else
    forRange (split (OutboundPortsInclude (cfg ic))) (fun port =>
      AppendRuleV4 log.UndefinedCommand OutputChain "nat"
        ["-p"; "tcp"; "--dport"; port; "-j"; RedirectChain]).

(** [cmd[0]] panics on an empty command; [len(cmd) > 1] chooses between the
    two call shapes of the variadic [RunOrFail]. *)
Definition executeCommand (ic : iptablesConstructor) : M unit :=
  fun w =>
    let commands := BuildV4 (iptables w) in
    forRange commands (fun cmd =>
      match cmd with
      | [] => abort PanicIndexOutOfRange
      | cmd0 :: cmd1 =>
          if (1 <? List.length cmd)%nat then RunOrFail (dep ic) cmd0 cmd1
          else RunOrFail (dep ic) cmd0 []
      end) w.

Definition run (ic : iptablesConstructor) : M unit :=
  AppendRuleV4 log.UndefinedCommand RedirectChain "nat"
    ["-p"; "tcp"; "-j"; "REDIRECT"; "--to-ports"; ProxyPort (cfg ic)] ;;
  AppendRuleV4 log.UndefinedCommand InboundRedirectChain "nat"
    ["-p"; "tcp"; "-j"; "REDIRECT"; "--to-ports";
     InboundCapturePort (cfg ic)] ;;
  insertSkipRules ic ;;
  insertInboundRules ic ;;
  insertOutboundRules ic ;;
  executeCommand ic.

(** ** The command line: [newCommand] *)

(** The two variables of [newCommand] that the flags write to and that the
    [Run] closure reads. *)
Record flagVars := {
  flagCfg : Config;
  proxyUser : string
}.

(** One flag given on the command line, with its parsed value. *)
Inductive Flag :=
| inbound_interception_mode (v : string)
| apisix_inbound_capture_port (v : string)
| apisix_port (v : string)
| inbound_ports (v : string)
| outbound_ports (v : string)
| inbound_exclude_ports (v : string)
| outbound_exclude_ports (v : string)
| dry_run (v : bool)
| apisix_user (v : string).

(** The variables as the flag declarations leave them: every flag at its
    default, every other field at Go's zero value. *)
Definition newCommand : flagVars :=
  {| flagCfg :=
       {| InboundInterceptionMode := "REDIRECT";
          InboundCapturePort := "9081";
          ProxyPort := "9080";
          InboundPortsInclude := "";
          InboundPortsExclude := "";
          OutboundPortsInclude := "";
          OutboundPortsExclude := "";
          ProxyUID := "";
          ProxyGID := "";
          DryRun := false |};
     proxyUser := "nobody" |}.

(** Each flag writes the variable it was declared with, and no other. *)
Definition setFlag (vars : flagVars) (f : Flag) : flagVars :=
  let c := flagCfg vars in
  let mk m icp pp ii ie oi oe d :=
    {| InboundInterceptionMode := m; InboundCapturePort := icp;
       ProxyPort := pp; InboundPortsInclude := ii; InboundPortsExclude := ie;
       OutboundPortsInclude := oi; OutboundPortsExclude := oe;
       ProxyUID := ProxyUID c; ProxyGID := ProxyGID c; DryRun := d |} in
  let m := InboundInterceptionMode c in
  let icp := InboundCapturePort c in
  let pp := ProxyPort c in
  let ii := InboundPortsInclude c in
  let ie := InboundPortsExclude c in
  let oi := OutboundPortsInclude c in
  let oe := OutboundPortsExclude c in
  let d := DryRun c in
  match f with
  | inbound_interception_mode v =>
      {| flagCfg := mk v icp pp ii ie oi oe d; proxyUser := proxyUser vars |}
  | apisix_inbound_capture_port v =>
      {| flagCfg := mk m v pp ii ie oi oe d; proxyUser := proxyUser vars |}
  | apisix_port v =>
      {| flagCfg := mk m icp v ii ie oi oe d; proxyUser := proxyUser vars |}
  | inbound_ports v =>
      {| flagCfg := mk m icp pp v ie oi oe d; proxyUser := proxyUser vars |}
  | outbound_ports v =>
      {| flagCfg := mk m icp pp ii ie v oe d; proxyUser := proxyUser vars |}
  | inbound_exclude_ports v =>
      {| flagCfg := mk m icp pp ii v oi oe d; proxyUser := proxyUser vars |}
  | outbound_exclude_ports v =>
      {| flagCfg := mk m icp pp ii ie oi v d; proxyUser := proxyUser vars |}
  | dry_run v =>
      {| flagCfg := mk m icp pp ii ie oi oe v; proxyUser := proxyUser vars |}
  | apisix_user v =>
      {| flagCfg := c; proxyUser := v |}
  end.

Definition parseFlags (args : list Flag) : flagVars :=
  fold_left setFlag args newCommand.

(** [cfg.ProxyUID = usr.Uid; cfg.ProxyGID = usr.Gid]. *)
Definition withIdentity (usr : user.User) (c : Config) : Config :=
  {| InboundInterceptionMode := InboundInterceptionMode c;
     InboundCapturePort := InboundCapturePort c;
     ProxyPort := ProxyPort c;
     InboundPortsInclude := InboundPortsInclude c;
     InboundPortsExclude := InboundPortsExclude c;
     OutboundPortsInclude := OutboundPortsInclude c;
     OutboundPortsExclude := OutboundPortsExclude c;
     ProxyUID := user.Uid usr;
     ProxyGID := user.Gid usr;
     DryRun := DryRun c |}.

(** The [Run] function of the command. *)
Definition Run (vars : flagVars) : M unit :=
  fun w =>
    let d := if DryRun (flagCfg vars) then StdoutStubDependencies
             else RealDependencies in
    match passwd w (proxyUser vars) with
    | None => (Abort (PanicUnknownUser (proxyUser vars)), w)
    | Some usr =>
        let c := withIdentity usr (flagCfg vars) in
        run {| cfg := c; dep := d |} (withBuilder (NewIptablesBuilder c) w)
    end.

(** [cmd.Execute()] on parsed flags. *)
Definition Execute (args : list Flag) : M unit := Run (parseFlags args).

(** ** Vocabulary of the specification *)

(** The rule insertions the builder holds once [run] has gone through a
    constructor with a new builder. *)
Definition emitted (ic : iptablesConstructor) (w : World) : list Rule :=
  rules (iptables (snd (run ic (withBuilder (NewIptablesBuilder (cfg ic)) w)))).

Definition natRule (c : string) (ps : list string) : Rule :=
  {| ipVersion := IPv4; chain := c; table := "nat"; params := ps |}.

Definition baselineRedirect (port : string) : Rule :=
  natRule "APISIX_REDIRECT"
    ["-p"; "tcp"; "-j"; "REDIRECT"; "--to-ports"; port].

Definition baselineInboundRedirect (port : string) : Rule :=
  natRule "APISIX_INBOUND_REDIRECT"
    ["-p"; "tcp"; "-j"; "REDIRECT"; "--to-ports"; port].

Definition skipLoopbackUID (uid : string) : Rule :=
  natRule "OUTPUT"
    ["-o"; "lo"; "!"; "-d"; "127.0.0.1/32"; "-m"; "owner"; "--uid-owner";
     uid; "-j"; "RETURN"].

Definition skipGID (gid : string) : Rule :=
  natRule "OUTPUT" ["-m"; "owner"; "--gid-owner"; gid; "-j"; "RETURN"].

Definition preroutingJump : Rule :=
  natRule "PREROUTING" ["-p"; "tcp"; "-j"; "APISIX_INBOUND"].

Definition inboundReturn (port : string) : Rule :=
  natRule "APISIX_INBOUND" ["-p"; "tcp"; "--dport"; port; "-j"; "RETURN"].

Definition inboundCatchAll : Rule :=
  natRule "APISIX_INBOUND" ["-p"; "tcp"; "-j"; "APISIX_INBOUND_REDIRECT"].

Definition inboundJump (port : string) : Rule :=
  natRule "APISIX_INBOUND"
    ["-p"; "tcp"; "--dport"; port; "-j"; "APISIX_INBOUND_REDIRECT"].

Definition outboundReturn (port : string) : Rule :=
  natRule "OUTPUT" ["-p"; "tcp"; "--dport"; port; "-j"; "RETURN"].

Definition outboundCatchAll : Rule :=
  natRule "OUTPUT" ["-p"; "tcp"; "-j"; "APISIX_REDIRECT"].

Definition outboundJump (port : string) : Rule :=
  natRule "OUTPUT" ["-p"; "tcp"; "--dport"; port; "-j"; "APISIX_REDIRECT"].

Definition onChain (c : string) (r : Rule) : bool := (chain r =? c)%string.

Fixpoint strsEqb (xs ys : list string) : bool :=
  match xs, ys with
  | [], [] => true
  | x :: xs', y :: ys' => (x =? y)%string && strsEqb xs' ys'
  | _, _ => false
  end.

(** An inbound capture rule: any rule of PREROUTING or of the inbound
    chain. *)
Definition isInboundCapture (r : Rule) : bool :=
  onChain "PREROUTING" r || onChain "APISIX_INBOUND" r.

(** An outbound capture rule: a rule of OUTPUT on TCP that jumps to the
    redirect chain, for every port or for one, or returns on one port. *)
Definition isOutboundCapture (r : Rule) : bool :=
  onChain "OUTPUT" r &&
  match params r with
  | [p; t; j; target] =>
      strsEqb [p; t; j] ["-p"; "tcp"; "-j"]
      && (target =? "APISIX_REDIRECT")%string
  | [p; t; d; _; j; target] =>
      strsEqb [p; t; d; j] ["-p"; "tcp"; "--dport"; "-j"]
      && ((target =? "APISIX_REDIRECT")%string || (target =? "RETURN")%string)
  | _ => false
  end.

(** A rule of the IPv4 [nat] table. *)
Definition isNatV4 (r : Rule) : bool := isV4 r && (table r =? "nat")%string.

Definition isCapture (r : Rule) : bool :=
  isInboundCapture r || isOutboundCapture r.

Definition withInboundPortsExclude (x : string) (ic : iptablesConstructor)
  : iptablesConstructor :=
  {| cfg :=
       {| InboundInterceptionMode := InboundInterceptionMode (cfg ic);
          InboundCapturePort := InboundCapturePort (cfg ic);
          ProxyPort := ProxyPort (cfg ic);
          InboundPortsInclude := InboundPortsInclude (cfg ic);
          InboundPortsExclude := x;
          OutboundPortsInclude := OutboundPortsInclude (cfg ic);
          OutboundPortsExclude := OutboundPortsExclude (cfg ic);
          ProxyUID := ProxyUID (cfg ic);
          ProxyGID := ProxyGID (cfg ic);
          DryRun := DryRun (cfg ic) |};
     dep := dep ic |}.

Definition withOutboundPortsExclude (x : string) (ic : iptablesConstructor)
  : iptablesConstructor :=
  {| cfg :=
       {| InboundInterceptionMode := InboundInterceptionMode (cfg ic);
          InboundCapturePort := InboundCapturePort (cfg ic);
          ProxyPort := ProxyPort (cfg ic);
          InboundPortsInclude := InboundPortsInclude (cfg ic);
          InboundPortsExclude := InboundPortsExclude (cfg ic);
          OutboundPortsInclude := OutboundPortsInclude (cfg ic);
          OutboundPortsExclude := x;
          ProxyUID := ProxyUID (cfg ic);
          ProxyGID := ProxyGID (cfg ic);
          DryRun := DryRun (cfg ic) |};
     dep := dep ic |}.

(** ** What each phase appends, as lists *)

Definition emit (rs : list Rule) (w : World) : World :=
  withBuilder {| rules := rules (iptables w) ++ rs |} w.

Definition Emits (m : M unit) (rs : list Rule) : Prop :=
  forall w, m w = (Ok tt, emit rs w).

Definition baselineRules (c : Config) : list Rule :=
  [baselineRedirect (ProxyPort c);
   baselineInboundRedirect (InboundCapturePort c)].

Definition skipRules (c : Config) : list Rule :=
  [skipLoopbackUID (ProxyUID c); skipGID (ProxyGID c)].

Definition inboundRules (c : Config) : list Rule :=
  if (InboundPortsInclude c =? "")%string then []
  else preroutingJump ::
       (if (InboundPortsInclude c =? "*")%string then
          inboundReturn "22"
          :: map inboundReturn (split (InboundPortsExclude c))
          ++ [inboundCatchAll]
        else map inboundJump (split (InboundPortsInclude c))).

Definition outboundRules (c : Config) : list Rule :=
  if (OutboundPortsInclude c =? "")%string then []
  else if (OutboundPortsInclude c =? "*")%string then
    map outboundReturn (split (OutboundPortsExclude c)) ++ [outboundCatchAll]
  else map outboundJump (split (OutboundPortsInclude c)).

(** ** What a command line says *)

(** The values a command line gives for one flag, in the order given; [pick]
    tells which flag is meant. *)
Definition valuesOf {A} (pick : Flag -> option A) (args : list Flag)
  : list A :=
  flat_map (fun f => match pick f with Some v => [v] | None => [] end) args.

(** The last value a command line gives for a flag, or the flag's default
    when the flag is not given. *)
Definition lastGiven {A} (pick : Flag -> option A) (dflt : A)
    (args : list Flag) : A :=
  last (valuesOf pick args) dflt.

Definition interceptionModeOf (f : Flag) : option string :=
  match f with inbound_interception_mode v => Some v | _ => None end.

Definition inboundCapturePortOf (f : Flag) : option string :=
  match f with apisix_inbound_capture_port v => Some v | _ => None end.

Definition apisixPortOf (f : Flag) : option string :=
  match f with apisix_port v => Some v | _ => None end.

Definition inboundPortsOf (f : Flag) : option string :=
  match f with inbound_ports v => Some v | _ => None end.

Definition outboundPortsOf (f : Flag) : option string :=
  match f with outbound_ports v => Some v | _ => None end.

Definition inboundExcludePortsOf (f : Flag) : option string :=
  match f with inbound_exclude_ports v => Some v | _ => None end.

Definition outboundExcludePortsOf (f : Flag) : option string :=
  match f with outbound_exclude_ports v => Some v | _ => None end.

Definition dryRunOf (f : Flag) : option bool :=
  match f with dry_run v => Some v | _ => None end.

Definition apisixUserOf (f : Flag) : option string :=
  match f with apisix_user v => Some v | _ => None end.

(** ** Further vocabulary *)

Definition withInterceptionMode (m : string) (ic : iptablesConstructor)
  : iptablesConstructor :=
  {| cfg :=
       {| InboundInterceptionMode := m;
          InboundCapturePort := InboundCapturePort (cfg ic);
          ProxyPort := ProxyPort (cfg ic);
          InboundPortsInclude := InboundPortsInclude (cfg ic);
          InboundPortsExclude := InboundPortsExclude (cfg ic);
          OutboundPortsInclude := OutboundPortsInclude (cfg ic);
          OutboundPortsExclude := OutboundPortsExclude (cfg ic);
          ProxyUID := ProxyUID (cfg ic);
          ProxyGID := ProxyGID (cfg ic);
          DryRun := DryRun (cfg ic) |};
     dep := dep ic |}.

(** The commands of a list up to and including the first one the host
    rejects. *)
Fixpoint upToFirstFailure (ok : list string -> bool)
    (commands : list (list string)) : list (list string) :=
  match commands with
  | [] => []
  | cmd :: rest =>
      if ok cmd then cmd :: upToFirstFailure ok rest else [cmd]
  end.

(** The last argument of a rule: the target of its [-j]. *)
Definition target (r : Rule) : string := last (params r) "".

(** A rule of the inbound chain returns or jumps to the inbound-redirect
    chain, a rule of OUTPUT returns or jumps to the redirect chain, and a
    rule of PREROUTING jumps to the inbound chain. *)
Definition wellTargeted (r : Rule) : bool :=
  if onChain "APISIX_INBOUND" r then
    (target r =? "RETURN")%string
    || (target r =? "APISIX_INBOUND_REDIRECT")%string
  else if onChain "OUTPUT" r then
    (target r =? "RETURN")%string || (target r =? "APISIX_REDIRECT")%string
  else if onChain "PREROUTING" r then (target r =? "APISIX_INBOUND")%string
  else true.

(** ** Sample inputs *)

(** A host where every command succeeds and [nobody] is the only user. *)
Definition sampleWorld : World :=
  {| iptables := {| rules := [] |};
     stdout := [];
     executed := [];
     succeeds := fun _ => true;
     passwd := fun name =>
       if (name =? "nobody")%string
       then Some {| user.Uid := "65534"; user.Gid := "65534" |}
       else None |}.

Definition sampleConstructor (inInc inExc outInc outExc : string)
  : iptablesConstructor :=
  {| cfg := {| InboundInterceptionMode := "REDIRECT";
               InboundCapturePort := "9081";
               ProxyPort := "9080";
               InboundPortsInclude := inInc;
               InboundPortsExclude := inExc;
               OutboundPortsInclude := outInc;
               OutboundPortsExclude := outExc;
               ProxyUID := "100";
               ProxyGID := "100";
               DryRun := true |};
     dep := StdoutStubDependencies |}.

(** ** Lemmas on the normalizer *)

Section Normalizer.

Lemma filterEmpty_loop (strs acc : list string) :
  fold_left
    (fun filtered s => if (s =? "")%string then filtered else filtered ++ [s])
    strs acc
  = acc ++ filter nonEmpty strs.
Proof.
  revert acc; induction strs as [|s strs IH]; intros acc; simpl.
  - now rewrite app_nil_r.
  - rewrite IH. unfold nonEmpty at 2.
    destruct (s =? "")%string; simpl; [reflexivity|].
    now rewrite <- app_assoc.
Qed.

Lemma filterEmpty_filter (strs : list string) :
  filterEmpty strs = filter nonEmpty strs.
Proof. unfold filterEmpty. now rewrite filterEmpty_loop. Qed.

Lemma filterEmpty_fixed (l : list string) :
  forallb nonEmpty l = true -> filterEmpty l = l.
Proof.
  rewrite filterEmpty_filter.
  induction l as [|t l IH]; simpl; [reflexivity|].
  intros H; apply andb_prop in H as [Ht Hl].
  rewrite Ht. now rewrite IH.
Qed.

Lemma Split_not_nil (s : string) : strings.Split s comma <> [].
Proof.
  destruct s as [|c s]; simpl; [discriminate|].
  destruct (Ascii.eqb c comma); [discriminate|].
  destruct (strings.Split s comma); discriminate.
Qed.

Lemma Split_commaFree (s : string) :
  forallb commaFree (strings.Split s comma) = true.
Proof.
  induction s as [|c s IH]; simpl; [reflexivity|].
  destruct (Ascii.eqb c comma) eqn:Hc; simpl; [exact IH|].
  destruct (strings.Split s comma) as [|piece pieces]; simpl in *.
  - now rewrite Hc.
  - now rewrite Hc.
Qed.

Lemma Split_Join (s : string) :
  strings.Join (strings.Split s comma) "," = s.
Proof.
  unfold strings.Join.
  induction s as [|c s IH]; simpl; [reflexivity|].
  destruct (Ascii.eqb c comma) eqn:Hc.
  - apply Ascii.eqb_eq in Hc; subst c.
    pose proof (Split_not_nil s) as Hne.
    destruct (strings.Split s comma) as [|piece pieces]; [congruence|].
    simpl in *. now rewrite IH.
  - pose proof (Split_not_nil s) as Hne.
    destruct (strings.Split s comma) as [|piece pieces]; [congruence|].
    simpl in *. destruct pieces; simpl in *; now rewrite <- IH.
Qed.

Lemma Split_commaFree_piece (t : string) :
  commaFree t = true -> strings.Split t comma = [t].
Proof.
  induction t as [|c t IH]; simpl; [reflexivity|].
  intros H; apply andb_prop in H as [Hc Ht].
  apply negb_true_iff in Hc. rewrite Hc, (IH Ht). reflexivity.
Qed.

Lemma Split_append_comma (t rest : string) :
  commaFree t = true ->
  strings.Split (t ++ String comma rest)%string comma
  = t :: strings.Split rest comma.
Proof.
  induction t as [|c t IH]; simpl; intros H.
  - reflexivity.
  - apply andb_prop in H as [Hc Ht].
    apply negb_true_iff in Hc. rewrite Hc, (IH Ht). reflexivity.
Qed.

Lemma Join_Split (l : list string) :
  l <> [] -> forallb commaFree l = true ->
  strings.Split (strings.Join l ",") comma = l.
Proof.
  unfold strings.Join.
  induction l as [|t l IH]; [congruence|].
  intros _ H; simpl in H; apply andb_prop in H as [Ht Hl].
  destruct l as [|u l].
  - simpl. now apply Split_commaFree_piece.
  - change (String.concat "," (t :: u :: l))
      with ((t ++ String comma (String.concat "," (u :: l)))%string).
    rewrite (Split_append_comma _ _ Ht), IH; [reflexivity|discriminate|exact Hl].
Qed.

Lemma forallb_filter_weaken {A} (p q : A -> bool) (l : list A) :
  forallb p l = true -> forallb p (filter q l) = true.
Proof.
  induction l as [|a l IH]; simpl; [reflexivity|].
  intros H; apply andb_prop in H as [Ha Hl].
  destruct (q a); simpl; [rewrite Ha|]; auto.
Qed.

Lemma forallb_filter_self {A} (q : A -> bool) (l : list A) :
  forallb q (filter q l) = true.
Proof.
  induction l as [|a l IH]; simpl; [reflexivity|].
  destruct (q a) eqn:Hq; simpl; [rewrite Hq|]; auto.
Qed.

Lemma split_tokens (s : string) :
  split s = filter nonEmpty (strings.Split s comma).
Proof.
  unfold split. destruct (s =? "")%string eqn:Hs.
  - apply String.eqb_eq in Hs; subst s. reflexivity.
  - apply filterEmpty_filter.
Qed.

Lemma split_nonEmpty (s : string) : forallb nonEmpty (split s) = true.
Proof. rewrite split_tokens. apply forallb_filter_self. Qed.

Lemma split_commaFree (s : string) : forallb commaFree (split s) = true.
Proof.
  rewrite split_tokens. apply forallb_filter_weaken, Split_commaFree.
Qed.

Lemma split_Join (l : list string) :
  forallb nonEmpty l = true -> forallb commaFree l = true ->
  split (strings.Join l ",") = l.
Proof.
  intros Hne Hcf. destruct l as [|t l]; [reflexivity|].
  unfold split.
  destruct (strings.Join (t :: l) "," =? "")%string eqn:Hj.
  - exfalso. apply String.eqb_eq in Hj.
    simpl in Hne. apply andb_prop in Hne as [Ht _].
    unfold nonEmpty in Ht. apply negb_true_iff, String.eqb_neq in Ht.
    unfold strings.Join in Hj.
    destruct t as [|c t]; [congruence|].
    destruct l; simpl in Hj; discriminate.
  - rewrite Join_Split; [now apply filterEmpty_fixed|discriminate|exact Hcf].
Qed.

End Normalizer.

(** C8: the normalizer maps the empty string to the empty sequence and every
    string to its comma-split pieces (the comma-free strings whose comma-join
    is the input) with the empty pieces dropped and the order kept;
    ["80,,443,"] normalizes to [["80"; "443"]]; and normalizing the
    comma-join of a normalized list gives that list again. *)
Theorem split_normalizes :
  split "" = []
  /\ (forall s,
        exists pieces,
          strings.Join pieces "," = s
          /\ forallb commaFree pieces = true
          /\ strings.Split s comma = pieces
          /\ split s = filter nonEmpty pieces)
  /\ split "80,,443," = ["80"; "443"]
  /\ (forall s, split (strings.Join (split s) ",") = split s).
Proof.
  split; [reflexivity|]. split; [|split; [reflexivity|]].
  - intros s. exists (strings.Split s comma).
    repeat split.
    + apply Split_Join.
    + apply Split_commaFree.
    + apply split_tokens.
  - intros s. apply split_Join.
    + apply split_nonEmpty.
    + apply split_commaFree.
Qed.

(** ** Lemmas on the engine *)

Section Engine.

Lemma emit_nil (w : World) : emit [] w = w.
Proof.
  destruct w as [[rs] so ex su pw]. unfold emit, withBuilder; simpl.
  now rewrite app_nil_r.
Qed.

Lemma emit_app (a b : list Rule) (w : World) :
  emit b (emit a w) = emit (a ++ b) w.
Proof. unfold emit, withBuilder; simpl. now rewrite app_assoc. Qed.

Lemma Emits_ret : Emits (ret tt) [].
Proof. intros w. unfold ret. now rewrite emit_nil. Qed.

Lemma Emits_bind (m k : M unit) (a b : list Rule) :
  Emits m a -> Emits k b -> Emits (m ;; k) (a ++ b).
Proof.
  intros Hm Hk w. unfold bind. rewrite Hm, Hk. now rewrite emit_app.
Qed.

Lemma Emits_AppendRuleV4 (c : log.Command) (ch : string) (ps : list string) :
  Emits (AppendRuleV4 c ch "nat" ps) [natRule ch ps].
Proof. intros w. reflexivity. Qed.

Lemma Emits_forRange {A} (xs : list A) (body : A -> M unit) (f : A -> Rule) :
  (forall x, Emits (body x) [f x]) -> Emits (forRange xs body) (map f xs).
Proof.
  intros Hbody. induction xs as [|x xs IH]; simpl.
  - apply Emits_ret.
  - change (f x :: map f xs) with ([f x] ++ map f xs).
    now apply Emits_bind.
Qed.

Lemma Emits_guarded (s : string) (body : string -> M unit)
    (f : string -> Rule) :
  (forall x, Emits (body x) [f x]) ->
  Emits (if negb (s =? "")%string then forRange (split s) body else ret tt)
        (map f (split s)).
Proof.
  intros Hbody. destruct (s =? "")%string eqn:Hs; simpl.
  - apply String.eqb_eq in Hs; subst s. apply Emits_ret.
  - now apply Emits_forRange.
Qed.

Lemma insertSkipRules_emits (ic : iptablesConstructor) :
  Emits (insertSkipRules ic) (skipRules (cfg ic)).
Proof.
  unfold insertSkipRules, skipRules.
  apply (Emits_bind _ _ [_] [_]); apply Emits_AppendRuleV4.
Qed.

Lemma insertInboundRules_emits (ic : iptablesConstructor) :
  Emits (insertInboundRules ic) (inboundRules (cfg ic)).
Proof.
  unfold insertInboundRules, inboundRules.
  destruct (InboundPortsInclude (cfg ic) =? "")%string; [apply Emits_ret|].
  apply (Emits_bind _ _ [_] _); [apply Emits_AppendRuleV4|].
  destruct (InboundPortsInclude (cfg ic) =? "*")%string.
  - apply (Emits_bind _ _ [_] _); [apply Emits_AppendRuleV4|].
    apply Emits_bind; [|apply Emits_AppendRuleV4].
    apply Emits_guarded. intros port. apply Emits_AppendRuleV4.
  - apply Emits_forRange. intros port. apply Emits_AppendRuleV4.
Qed.

Lemma insertOutboundRules_emits (ic : iptablesConstructor) :
  Emits (insertOutboundRules ic) (outboundRules (cfg ic)).
Proof.
  unfold insertOutboundRules, outboundRules.
  destruct (OutboundPortsInclude (cfg ic) =? "")%string; [apply Emits_ret|].
  destruct (OutboundPortsInclude (cfg ic) =? "*")%string.
  - apply Emits_bind; [|apply Emits_AppendRuleV4].
    apply Emits_guarded. intros port. apply Emits_AppendRuleV4.
  - apply Emits_forRange. intros port. apply Emits_AppendRuleV4.
Qed.

(** The four phases of [run], before the commands are submitted. *)
Lemma phases_emit (ic : iptablesConstructor) :
  Emits
    (AppendRuleV4 log.UndefinedCommand RedirectChain "nat"
       ["-p"; "tcp"; "-j"; "REDIRECT"; "--to-ports"; ProxyPort (cfg ic)] ;;
     AppendRuleV4 log.UndefinedCommand InboundRedirectChain "nat"
       ["-p"; "tcp"; "-j"; "REDIRECT"; "--to-ports";
        InboundCapturePort (cfg ic)] ;;
     insertSkipRules ic ;;
     insertInboundRules ic ;;
     insertOutboundRules ic)
    (baselineRules (cfg ic) ++ skipRules (cfg ic)
     ++ inboundRules (cfg ic) ++ outboundRules (cfg ic)).
Proof.
  unfold baselineRules.
  apply (Emits_bind _ _ [_] (_ :: _)); [apply Emits_AppendRuleV4|].
  apply (Emits_bind _ _ [_] _); [apply Emits_AppendRuleV4|].
  apply Emits_bind; [apply insertSkipRules_emits|].
  apply Emits_bind; [apply insertInboundRules_emits|].
  apply insertOutboundRules_emits.
Qed.

Lemma bind_Ok (m k : M unit) (w w1 : World) :
  m w = (Ok tt, w1) -> (m ;; k) w = k w1.
Proof. intros H. unfold bind. now rewrite H. Qed.

Lemma bind_Abort (m k : M unit) (w w1 : World) (f : Failure) :
  m w = (Abort f, w1) -> (m ;; k) w = (Abort f, w1).
Proof. intros H. unfold bind. now rewrite H. Qed.

(** Submitting commands never touches the builder. *)
Lemma submit_builder (d : Dependencies) (commands : list (list string))
    (w : World) :
  iptables
    (snd (forRange commands (fun cmd =>
            match cmd with
            | [] => abort PanicIndexOutOfRange
            | cmd0 :: cmd1 =>
                if (1 <? List.length cmd)%nat then RunOrFail d cmd0 cmd1
                else RunOrFail d cmd0 []
            end) w))
  = iptables w.
Proof.
  revert w. induction commands as [|cmd commands IH]; intros w; simpl.
  - reflexivity.
  - unfold bind at 1.
    destruct cmd as [|cmd0 cmd1]; [reflexivity|].
    destruct (1 <? List.length (cmd0 :: cmd1))%nat;
      unfold RunOrFail; destruct d; simpl;
      try (rewrite IH; reflexivity);
      destruct (succeeds w _); simpl; try (rewrite IH); reflexivity.
Qed.

Lemma executeCommand_builder (ic : iptablesConstructor) (w : World) :
  iptables (snd (executeCommand ic w)) = iptables w.
Proof. unfold executeCommand. apply submit_builder. Qed.

Lemma run_unfold (ic : iptablesConstructor) (w : World) :
  run ic w
  = executeCommand ic
      (emit (baselineRules (cfg ic) ++ skipRules (cfg ic)
             ++ inboundRules (cfg ic) ++ outboundRules (cfg ic)) w).
Proof.
  pose proof (phases_emit ic w) as H.
  unfold run. unfold bind in *.
  destruct (AppendRuleV4 _ RedirectChain _ _ w) as [[[]|f] w1];
    [|discriminate].
  destruct (AppendRuleV4 _ InboundRedirectChain _ _ w1) as [[[]|f] w2];
    [|discriminate].
  destruct (insertSkipRules ic w2) as [[[]|f] w3]; [|discriminate].
  destruct (insertInboundRules ic w3) as [[[]|f] w4]; [|discriminate].
  destruct (insertOutboundRules ic w4) as [[[]|f] w5]; [|discriminate].
  now inversion H.
Qed.

Lemma emitted_phases (ic : iptablesConstructor) (w : World) :
  emitted ic w
  = baselineRules (cfg ic) ++ skipRules (cfg ic)
    ++ inboundRules (cfg ic) ++ outboundRules (cfg ic).
Proof.
  unfold emitted. rewrite run_unfold, executeCommand_builder. reflexivity.
Qed.

End Engine.

(** ** Which chain and table the rules of each phase are on *)

Section Chains.

Lemma forallb_map_all {A B} (p : B -> bool) (f : A -> B) (xs : list A) :
  (forall x, p (f x) = true) -> forallb p (map f xs) = true.
Proof.
  intros H. induction xs as [|x xs IH]; simpl; [reflexivity|].
  now rewrite H, IH.
Qed.

Lemma filter_all {A} (p : A -> bool) (l : list A) :
  forallb p l = true -> filter p l = l.
Proof.
  induction l as [|a l IH]; simpl; [reflexivity|].
  intros H; apply andb_prop in H as [Ha Hl]. now rewrite Ha, IH.
Qed.

Lemma filter_none {A} (p q : A -> bool) (l : list A) :
  (forall a, q a = true -> p a = false) ->
  forallb q l = true -> filter p l = [].
Proof.
  intros Hpq. induction l as [|a l IH]; simpl; [reflexivity|].
  intros H; apply andb_prop in H as [Ha Hl]. now rewrite (Hpq a Ha), IH.
Qed.

Lemma inboundRules_capture (c : Config) :
  forallb isInboundCapture (inboundRules c) = true.
Proof.
  unfold inboundRules.
  destruct (InboundPortsInclude c =? "")%string; [reflexivity|].
  destruct (InboundPortsInclude c =? "*")%string; simpl.
  - rewrite forallb_app, forallb_map_all; reflexivity.
  - apply forallb_map_all; reflexivity.
Qed.

Lemma outboundRules_capture (c : Config) :
  forallb isOutboundCapture (outboundRules c) = true.
Proof.
  unfold outboundRules.
  destruct (OutboundPortsInclude c =? "")%string; [reflexivity|].
  destruct (OutboundPortsInclude c =? "*")%string; simpl.
  - rewrite forallb_app, forallb_map_all; reflexivity.
  - apply forallb_map_all; reflexivity.
Qed.

Lemma inboundRules_natV4 (c : Config) :
  forallb isNatV4 (inboundRules c) = true.
Proof.
  unfold inboundRules.
  destruct (InboundPortsInclude c =? "")%string; [reflexivity|].
  destruct (InboundPortsInclude c =? "*")%string; simpl.
  - rewrite forallb_app, forallb_map_all; reflexivity.
  - apply forallb_map_all; reflexivity.
Qed.

Lemma outboundRules_natV4 (c : Config) :
  forallb isNatV4 (outboundRules c) = true.
Proof.
  unfold outboundRules.
  destruct (OutboundPortsInclude c =? "")%string; [reflexivity|].
  destruct (OutboundPortsInclude c =? "*")%string; simpl.
  - rewrite forallb_app, forallb_map_all; reflexivity.
  - apply forallb_map_all; reflexivity.
Qed.

Lemma outbound_not_inbound (r : Rule) :
  isOutboundCapture r = true -> isInboundCapture r = false.
Proof.
  unfold isOutboundCapture, isInboundCapture, onChain.
  intros H; apply andb_prop in H as [H _].
  apply String.eqb_eq in H. now rewrite H.
Qed.

Lemma outbound_not_on_inbound_chain (r : Rule) :
  isOutboundCapture r = true -> onChain "APISIX_INBOUND" r = false.
Proof.
  unfold isOutboundCapture, onChain.
  intros H; apply andb_prop in H as [H _].
  apply String.eqb_eq in H. now rewrite H.
Qed.

Lemma inbound_not_on_OUTPUT (r : Rule) :
  isInboundCapture r = true -> onChain "OUTPUT" r = false.
Proof.
  unfold isInboundCapture, onChain. intros H.
  apply orb_prop in H as [H|H]; apply String.eqb_eq in H; now rewrite H.
Qed.

Lemma inbound_not_outbound (r : Rule) :
  isInboundCapture r = true -> isOutboundCapture r = false.
Proof.
  intros H. unfold isOutboundCapture.
  now rewrite (inbound_not_on_OUTPUT r H).
Qed.

End Chains.

(** ** The claims *)

(** C1: scenario A. With capture port 9081, proxy port 9080, inbound include
    ["*"], inbound exclude ["9081"], no outbound include and identity
    100/100, the builder receives exactly eight insertions, in this order:
    the two baseline redirects, the two skip rules, the PREROUTING jump, the
    port-22 return, the port-9081 return and the catch-all jump to the
    inbound-redirect chain; none of them is an outbound capture rule. *)
Theorem scenario_A (mode outEx : string) (dry : bool) (d : Dependencies)
    (w : World) :
  let ic :=
    {| cfg := {| InboundInterceptionMode := mode;
                 InboundCapturePort := "9081";
                 ProxyPort := "9080";
                 InboundPortsInclude := "*";
                 InboundPortsExclude := "9081";
                 OutboundPortsInclude := "";
                 OutboundPortsExclude := outEx;
                 ProxyUID := "100";
                 ProxyGID := "100";
                 DryRun := dry |};
       dep := d |} in
  emitted ic w
  = [ baselineRedirect "9080";
      baselineInboundRedirect "9081";
      skipLoopbackUID "100";
      skipGID "100";
      preroutingJump;
      inboundReturn "22";
      inboundReturn "9081";
      inboundCatchAll ]
  /\ filter isOutboundCapture (emitted ic w) = [].
Proof.
  intros ic. rewrite emitted_phases. split; reflexivity.
Qed.

(** C2: when the inbound include is ["*"], the rules on the inbound chain
    are the port-22 return, then one return per token of the normalized
    inbound exclude list in list order, then the catch-all jump to the
    inbound-redirect chain, which is therefore the last of them. *)
Theorem wildcard_inbound_chain (ic : iptablesConstructor) (w : World) :
  InboundPortsInclude (cfg ic) = "*" ->
  filter (onChain "APISIX_INBOUND") (emitted ic w)
  = inboundReturn "22"
    :: map inboundReturn (split (InboundPortsExclude (cfg ic)))
    ++ [inboundCatchAll]
  /\ last (filter (onChain "APISIX_INBOUND") (emitted ic w)) preroutingJump
     = inboundCatchAll.
Proof.
  intros Hinc.
  assert (Hf : filter (onChain "APISIX_INBOUND") (emitted ic w)
               = inboundReturn "22"
                 :: map inboundReturn (split (InboundPortsExclude (cfg ic)))
                 ++ [inboundCatchAll]).
  { rewrite emitted_phases. unfold inboundRules. rewrite Hinc. simpl.
    rewrite !filter_app.
    rewrite (filter_all _ (map inboundReturn _))
      by (apply forallb_map_all; reflexivity).
    rewrite (filter_none _ isOutboundCapture (outboundRules _)
               outbound_not_on_inbound_chain (outboundRules_capture _)).
    simpl. now rewrite app_nil_r. }
  split; [exact Hf|].
  rewrite Hf.
  change (inboundReturn "22"
          :: map inboundReturn (split (InboundPortsExclude (cfg ic)))
          ++ [inboundCatchAll])
    with ((inboundReturn "22"
           :: map inboundReturn (split (InboundPortsExclude (cfg ic))))
          ++ [inboundCatchAll]).
  apply last_last.
Qed.

(** C3: when the inbound include is an explicit list (neither empty nor
    ["*"]), the rules on the inbound chain are exactly one jump to the
    inbound-redirect chain per token of the normalized list, in list order,
    so there are as many as tokens; and the catch-all jump to the
    inbound-redirect chain is not among the emitted rules. *)
Theorem explicit_inbound_chain (ic : iptablesConstructor) (w : World) :
  InboundPortsInclude (cfg ic) <> "" ->
  InboundPortsInclude (cfg ic) <> "*" ->
  filter (onChain "APISIX_INBOUND") (emitted ic w)
  = map inboundJump (split (InboundPortsInclude (cfg ic)))
  /\ List.length (filter (onChain "APISIX_INBOUND") (emitted ic w))
     = List.length (split (InboundPortsInclude (cfg ic)))
  /\ ~ In inboundCatchAll (emitted ic w).
Proof.
  intros Hne Hnw.
  assert (Hf : filter (onChain "APISIX_INBOUND") (emitted ic w)
               = map inboundJump (split (InboundPortsInclude (cfg ic)))).
  { rewrite emitted_phases. unfold inboundRules.
    apply String.eqb_neq in Hne, Hnw. rewrite Hne, Hnw. simpl.
    rewrite !filter_app.
    rewrite (filter_all _ (map inboundJump _))
      by (apply forallb_map_all; reflexivity).
    rewrite (filter_none _ isOutboundCapture (outboundRules _)
               outbound_not_on_inbound_chain (outboundRules_capture _)).
    now rewrite app_nil_r. }
  split; [exact Hf|]. split.
  - rewrite Hf. apply length_map.
  - intros Hin.
    assert (Hin' : In inboundCatchAll
                     (filter (onChain "APISIX_INBOUND") (emitted ic w))).
    { apply filter_In. split; [exact Hin|reflexivity]. }
    rewrite Hf in Hin'. apply in_map_iff in Hin' as [port [Heq _]].
    discriminate Heq.
Qed.

(** C4: for every configuration the emitted sequence is the two baseline
    rules, then the loopback-uid skip rule, then the gid skip rule, then the
    capture rules; everything after the skip rules is an inbound or outbound
    capture rule and nothing up to them is one, so both skip rules come
    before every capture rule. *)
Theorem skip_rules_precede_capture (ic : iptablesConstructor) (w : World) :
  exists captures,
    emitted ic w
    = baselineRedirect (ProxyPort (cfg ic))
      :: baselineInboundRedirect (InboundCapturePort (cfg ic))
      :: skipLoopbackUID (ProxyUID (cfg ic))
      :: skipGID (ProxyGID (cfg ic))
      :: captures
    /\ forallb isCapture captures = true
    /\ isCapture (baselineRedirect (ProxyPort (cfg ic))) = false
    /\ isCapture (baselineInboundRedirect (InboundCapturePort (cfg ic)))
       = false
    /\ isCapture (skipLoopbackUID (ProxyUID (cfg ic))) = false
    /\ isCapture (skipGID (ProxyGID (cfg ic))) = false.
Proof.
  exists (inboundRules (cfg ic) ++ outboundRules (cfg ic)).
  split; [apply emitted_phases|].
  split; [|repeat split; reflexivity].
  rewrite forallb_app. apply andb_true_intro. split.
  - pose proof (inboundRules_capture (cfg ic)) as H.
    rewrite forallb_forall in *. intros r Hr. unfold isCapture.
    now rewrite (H r Hr).
  - pose proof (outboundRules_capture (cfg ic)) as H.
    rewrite forallb_forall in *. intros r Hr. unfold isCapture.
    rewrite (H r Hr). apply orb_true_r.
Qed.

(** C5: changing only the inbound exclude list of a configuration whose
    inbound include is not ["*"] changes nothing in what [run] does, rule
    sequence included; likewise for the outbound exclude list when the
    outbound include is not ["*"]. *)
Theorem exclude_inert (ic : iptablesConstructor) (x : string) (w : World) :
  (InboundPortsInclude (cfg ic) <> "*" ->
   run (withInboundPortsExclude x ic) w = run ic w
   /\ emitted (withInboundPortsExclude x ic) w = emitted ic w)
  /\ (OutboundPortsInclude (cfg ic) <> "*" ->
      run (withOutboundPortsExclude x ic) w = run ic w
      /\ emitted (withOutboundPortsExclude x ic) w = emitted ic w).
Proof.
  split; intros Hnw; apply String.eqb_neq in Hnw.
  - assert (Hr : forall w', run (withInboundPortsExclude x ic) w' = run ic w').
    { intros w'. rewrite !run_unfold.
      replace (inboundRules (cfg (withInboundPortsExclude x ic)))
        with (inboundRules (cfg ic))
        by (unfold inboundRules; simpl; now rewrite Hnw).
      reflexivity. }
    split; [apply Hr|]. unfold emitted. now rewrite Hr.
  - assert (Hr : forall w', run (withOutboundPortsExclude x ic) w' = run ic w').
    { intros w'. rewrite !run_unfold.
      replace (outboundRules (cfg (withOutboundPortsExclude x ic)))
        with (outboundRules (cfg ic))
        by (unfold outboundRules; simpl; now rewrite Hnw).
      reflexivity. }
    split; [apply Hr|]. unfold emitted. now rewrite Hr.
Qed.

(** C6: with an empty inbound include the inbound phase leaves the builder as
    it is, and no rule of PREROUTING or of the inbound chain is emitted;
    with an empty outbound include the outbound phase leaves the builder as
    it is, no outbound capture rule is emitted, and OUTPUT holds the two
    skip rules only. *)
Theorem empty_include_disables (ic : iptablesConstructor) (w : World) :
  (InboundPortsInclude (cfg ic) = "" ->
   insertInboundRules ic w = (Ok tt, w)
   /\ filter isInboundCapture (emitted ic w) = [])
  /\ (OutboundPortsInclude (cfg ic) = "" ->
      insertOutboundRules ic w = (Ok tt, w)
      /\ filter isOutboundCapture (emitted ic w) = []
      /\ filter (onChain "OUTPUT") (emitted ic w)
         = [skipLoopbackUID (ProxyUID (cfg ic)); skipGID (ProxyGID (cfg ic))]).
Proof.
  split; intros Hempty.
  - split.
    + unfold insertInboundRules. now rewrite Hempty.
    + rewrite emitted_phases. unfold inboundRules. rewrite Hempty. simpl.
      apply (filter_none _ isOutboundCapture);
        [apply outbound_not_inbound|apply outboundRules_capture].
  - split; [|split].
    + unfold insertOutboundRules. now rewrite Hempty.
    + rewrite emitted_phases. unfold outboundRules. rewrite Hempty. simpl.
      rewrite app_nil_r.
      apply (filter_none _ isInboundCapture);
        [apply inbound_not_outbound|apply inboundRules_capture].
    + rewrite emitted_phases. unfold outboundRules. rewrite Hempty. simpl.
      rewrite app_nil_r.
      now rewrite (filter_none _ isInboundCapture (inboundRules _)
                     inbound_not_on_OUTPUT (inboundRules_capture _)).
Qed.

(** C7: scenario B. With outbound include ["80"] and the inbound include,
    inbound exclude and outbound exclude all empty, exactly five rules are
    emitted: the two baseline redirects, the two skip rules and the OUTPUT
    jump of destination port 80 to the redirect chain; none is an inbound
    rule. *)
Theorem scenario_B (ic : iptablesConstructor) (w : World) :
  OutboundPortsInclude (cfg ic) = "80" ->
  InboundPortsInclude (cfg ic) = "" ->
  InboundPortsExclude (cfg ic) = "" ->
  OutboundPortsExclude (cfg ic) = "" ->
  emitted ic w
  = [ baselineRedirect (ProxyPort (cfg ic));
      baselineInboundRedirect (InboundCapturePort (cfg ic));
      skipLoopbackUID (ProxyUID (cfg ic));
      skipGID (ProxyGID (cfg ic));
      outboundJump "80" ]
  /\ List.length (emitted ic w) = 5
  /\ filter isInboundCapture (emitted ic w) = [].
Proof.
  intros Hout Hin _ _.
  assert (He : emitted ic w
               = [ baselineRedirect (ProxyPort (cfg ic));
                   baselineInboundRedirect (InboundCapturePort (cfg ic));
                   skipLoopbackUID (ProxyUID (cfg ic));
                   skipGID (ProxyGID (cfg ic));
                   outboundJump "80" ]).
  { rewrite emitted_phases. unfold inboundRules, outboundRules.
    rewrite Hout, Hin. reflexivity. }
  rewrite He. repeat split; reflexivity.
Qed.

(** ** Submitting the commands *)

Section Submission.

Lemma submit_dry_run (commands : list (list string)) (w : World) :
  forallb (fun cmd => negb (List.length cmd =? 0)%nat) commands = true ->
  let r := forRange commands (fun cmd =>
             match cmd with
             | [] => abort PanicIndexOutOfRange
             | cmd0 :: cmd1 =>
                 if (1 <? List.length cmd)%nat
                 then RunOrFail StdoutStubDependencies cmd0 cmd1
                 else RunOrFail StdoutStubDependencies cmd0 []
             end) w in
  fst r = Ok tt
  /\ stdout (snd r) = stdout w ++ commands
  /\ executed (snd r) = executed w.
Proof.
  cbv zeta.
  revert w. induction commands as [|cmd commands IH]; intros w Hne.
  - simpl. now rewrite app_nil_r.
  - simpl in Hne. apply andb_prop in Hne as [Hcmd Hne].
    destruct cmd as [|cmd0 cmd1]; [discriminate|].
    assert (Hstep :
      (if (1 <? List.length (cmd0 :: cmd1))%nat
       then RunOrFail StdoutStubDependencies cmd0 cmd1
       else RunOrFail StdoutStubDependencies cmd0 []) w
      = (Ok tt,
         {| iptables := iptables w; stdout := stdout w ++ [cmd0 :: cmd1];
            executed := executed w; succeeds := succeeds w;
            passwd := passwd w |})).
    { destruct cmd1; reflexivity. }
    cbn [forRange]. rewrite (bind_Ok _ _ _ _ Hstep).
    destruct (IH {| iptables := iptables w;
                    stdout := stdout w ++ [cmd0 :: cmd1];
                    executed := executed w; succeeds := succeeds w;
                    passwd := passwd w |} Hne) as [H1 [H2 H3]].
    repeat split; [exact H1| |exact H3].
    rewrite H2. simpl. now rewrite <- app_assoc.
Qed.

Lemma submit_real (commands : list (list string)) (w : World) :
  let r := forRange commands (fun cmd =>
             match cmd with
             | [] => abort PanicIndexOutOfRange
             | cmd0 :: cmd1 =>
                 if (1 <? List.length cmd)%nat
                 then RunOrFail RealDependencies cmd0 cmd1
                 else RunOrFail RealDependencies cmd0 []
             end) w in
  stdout (snd r) = stdout w
  /\ exists n, executed (snd r) = executed w ++ firstn n commands.
Proof.
  cbv zeta.
  revert w. induction commands as [|cmd commands IH]; intros w.
  - simpl. split; [reflexivity|]. exists 0. simpl. now rewrite app_nil_r.
  - destruct cmd as [|cmd0 cmd1].
    + simpl. split; [reflexivity|]. exists 0. simpl. now rewrite app_nil_r.
    + set (w1 := {| iptables := iptables w; stdout := stdout w;
                    executed := executed w ++ [cmd0 :: cmd1];
                    succeeds := succeeds w; passwd := passwd w |}).
      cbn [forRange].
      destruct (succeeds w (cmd0 :: cmd1)) eqn:Hs.
      * assert (Hstep :
          (if (1 <? List.length (cmd0 :: cmd1))%nat
           then RunOrFail RealDependencies cmd0 cmd1
           else RunOrFail RealDependencies cmd0 []) w = (Ok tt, w1)).
        { destruct cmd1; cbn in *; rewrite Hs; reflexivity. }
        rewrite (bind_Ok _ _ _ _ Hstep).
        destruct (IH w1) as [H1 [n H2]].
        split; [exact H1|]. exists (S n).
        rewrite H2. simpl. now rewrite <- app_assoc.
      * assert (Hstep :
          (if (1 <? List.length (cmd0 :: cmd1))%nat
           then RunOrFail RealDependencies cmd0 cmd1
           else RunOrFail RealDependencies cmd0 []) w
          = (Abort (FatalCommand (cmd0 :: cmd1)), w1)).
        { destruct cmd1; cbn in *; rewrite Hs; reflexivity. }
        rewrite (bind_Abort _ _ _ _ _ Hstep).
        split; [reflexivity|]. exists 1. reflexivity.
Qed.

Lemma BuildV4_natV4 (rs : list Rule) :
  forallb isNatV4 rs = true ->
  BuildV4 {| rules := rs |} = map commandOf rs.
Proof.
  intros H. unfold BuildV4; simpl. f_equal. apply filter_all.
  rewrite forallb_forall in *. intros r Hr.
  specialize (H r Hr). unfold isNatV4 in H. now apply andb_prop in H as [H _].
Qed.

Lemma emitted_natV4 (ic : iptablesConstructor) (w : World) :
  forallb isNatV4 (emitted ic w) = true.
Proof.
  rewrite emitted_phases. simpl.
  now rewrite forallb_app, inboundRules_natV4, outboundRules_natV4.
Qed.

Lemma parseFlags_identity (args : list Flag) (vars : flagVars) :
  ProxyUID (flagCfg (fold_left setFlag args vars)) = ProxyUID (flagCfg vars)
  /\ ProxyGID (flagCfg (fold_left setFlag args vars))
     = ProxyGID (flagCfg vars).
Proof.
  revert vars. induction args as [|f args IH]; intros vars; simpl.
  - split; reflexivity.
  - destruct (IH (setFlag vars f)) as [H1 H2]. rewrite H1, H2.
    destruct f; split; reflexivity.
Qed.

Lemma last_cons_default {A} (v d : A) (l : list A) :
  last (v :: l) d = last l v.
Proof.
  revert v d. induction l as [|a l IH]; intros v d; [reflexivity|].
  change (last (v :: a :: l) d) with (last (a :: l) d).
  now rewrite (IH a d), (IH a v).
Qed.

Lemma lastGiven_cons {A} (pick : Flag -> option A) (d : A) (f : Flag)
    (args : list Flag) :
  lastGiven pick d (f :: args)
  = lastGiven pick (match pick f with Some v => v | None => d end) args.
Proof.
  unfold lastGiven, valuesOf. simpl.
  destruct (pick f) as [v|]; simpl; [apply last_cons_default|reflexivity].
Qed.

(** Folding [setFlag] over a command line leaves every variable at the last
    value given for its own flag, and the identity fields as they were. *)
Lemma fold_setFlag (args : list Flag) (vars : flagVars) :
  fold_left setFlag args vars
  = {| flagCfg :=
         {| InboundInterceptionMode :=
              lastGiven interceptionModeOf
                (InboundInterceptionMode (flagCfg vars)) args;
            InboundCapturePort :=
              lastGiven inboundCapturePortOf
                (InboundCapturePort (flagCfg vars)) args;
            ProxyPort :=
              lastGiven apisixPortOf (ProxyPort (flagCfg vars)) args;
            InboundPortsInclude :=
              lastGiven inboundPortsOf
                (InboundPortsInclude (flagCfg vars)) args;
            InboundPortsExclude :=
              lastGiven inboundExcludePortsOf
                (InboundPortsExclude (flagCfg vars)) args;
            OutboundPortsInclude :=
              lastGiven outboundPortsOf
                (OutboundPortsInclude (flagCfg vars)) args;
            OutboundPortsExclude :=
              lastGiven outboundExcludePortsOf
                (OutboundPortsExclude (flagCfg vars)) args;
            ProxyUID := ProxyUID (flagCfg vars);
            ProxyGID := ProxyGID (flagCfg vars);
            DryRun := lastGiven dryRunOf (DryRun (flagCfg vars)) args |};
       proxyUser := lastGiven apisixUserOf (proxyUser vars) args |}.
Proof.
  revert vars. induction args as [|f args IH]; intros vars.
  - destruct vars as [[m icp pp ii ie oi oe uid gid d] u]. reflexivity.
  - cbn [fold_left]. rewrite IH, !lastGiven_cons.
    destruct f; reflexivity.
Qed.

End Submission.

(** C9: every emitted rule is an IPv4 rule of the [nat] table, the first two
    emitted rules are the two baseline redirects, and the commands handed to
    the backend are those of the emitted IPv4 rules, in order: all of them
    on a dry run, and on a real run the ones up to the first that fails. *)
Theorem nat_ipv4_only (ic : iptablesConstructor) (w : World) :
  let w' := snd (run ic (withBuilder (NewIptablesBuilder (cfg ic)) w)) in
  forallb isNatV4 (emitted ic w) = true
  /\ filter (fun r => negb (isV4 r)) (emitted ic w) = []
  /\ firstn 2 (emitted ic w)
     = [baselineRedirect (ProxyPort (cfg ic));
        baselineInboundRedirect (InboundCapturePort (cfg ic))]
  /\ BuildV4 (iptables w') = map commandOf (emitted ic w)
  /\ match dep ic with
     | StdoutStubDependencies =>
         stdout w' = stdout w ++ map commandOf (emitted ic w)
         /\ executed w' = executed w
     | RealDependencies =>
         stdout w' = stdout w
         /\ exists n,
              executed w' = executed w ++ firstn n (map commandOf (emitted ic w))
     end.
Proof.
  intros w'. pose proof (emitted_natV4 ic w) as Hnat.
  split; [exact Hnat|]. split; [|split; [|split]].
  - apply (filter_none _ isNatV4); [|exact Hnat].
    intros r Hr. unfold isNatV4 in Hr. apply andb_prop in Hr as [Hr _].
    now rewrite Hr.
  - rewrite emitted_phases. reflexivity.
  - unfold w'. fold (emitted ic w).
    change (BuildV4 (iptables
              (snd (run ic (withBuilder (NewIptablesBuilder (cfg ic)) w)))))
      with (map commandOf (filter isV4 (emitted ic w))).
    f_equal. apply filter_all.
    rewrite forallb_forall in *. intros r Hr.
    specialize (Hnat r Hr). unfold isNatV4 in Hnat.
    now apply andb_prop in Hnat as [Hnat _].
  - unfold w'. rewrite run_unfold. unfold executeCommand.
    set (w1 := emit _ _).
    assert (Hb : BuildV4 (iptables w1) = map commandOf (emitted ic w)).
    { unfold w1. rewrite <- (emitted_phases ic w).
      change (BuildV4 {| rules := emitted ic w |}
              = map commandOf (emitted ic w)).
      apply BuildV4_natV4, Hnat. }
    rewrite Hb.
    destruct (dep ic).
    + apply (submit_dry_run (map commandOf (emitted ic w)) w1).
      apply forallb_map_all. reflexivity.
    + apply (submit_real (map commandOf (emitted ic w)) w1).
Qed.

(** C10: at the command line no flag writes the proxy identity: parsing
    leaves every variable at the last value given for its own flag, or at the
    flag's default, and both identity fields empty. The one user looked up is
    the one named by the last [--apisix-user] given, ["nobody"] when the flag
    is not given, and whatever identity the configuration held before is
    overwritten: when the lookup succeeds the engine runs with the Uid and
    Gid of that user, which the two skip rules carry; when it fails the
    process panics with the world untouched, so no rule has been appended
    and no command submitted. *)
Theorem identity_from_lookup (args : list Flag) (w : World) :
  let vars := parseFlags args in
  let name := lastGiven apisixUserOf "nobody" args in
  proxyUser (parseFlags []) = "nobody"
  /\ vars
     = {| flagCfg :=
            {| InboundInterceptionMode :=
                 lastGiven interceptionModeOf "REDIRECT" args;
               InboundCapturePort :=
                 lastGiven inboundCapturePortOf "9081" args;
               ProxyPort := lastGiven apisixPortOf "9080" args;
               InboundPortsInclude := lastGiven inboundPortsOf "" args;
               InboundPortsExclude :=
                 lastGiven inboundExcludePortsOf "" args;
               OutboundPortsInclude := lastGiven outboundPortsOf "" args;
               OutboundPortsExclude :=
                 lastGiven outboundExcludePortsOf "" args;
               ProxyUID := "";
               ProxyGID := "";
               DryRun := lastGiven dryRunOf false args |};
          proxyUser := name |}
  /\ proxyUser vars = name
  /\ ProxyUID (flagCfg vars) = ""
  /\ ProxyGID (flagCfg vars) = ""
  /\ (forall u0,
        Run {| flagCfg := withIdentity u0 (flagCfg vars);
               proxyUser := proxyUser vars |} w
        = Run vars w)
  /\ match passwd w (proxyUser vars) with
     | None =>
         Execute args w = (Abort (PanicUnknownUser (proxyUser vars)), w)
     | Some usr =>
         let ic :=
           {| cfg := withIdentity usr (flagCfg vars);
              dep := if DryRun (flagCfg vars) then StdoutStubDependencies
                     else RealDependencies |} in
         Execute args w
         = run ic (withBuilder (NewIptablesBuilder (cfg ic)) w)
         /\ rules (iptables (snd (Execute args w))) = emitted ic w
         /\ nth_error (emitted ic w) 2
            = Some (skipLoopbackUID (user.Uid usr))
         /\ nth_error (emitted ic w) 3 = Some (skipGID (user.Gid usr))
     end
  /\ match passwd w name with
     | None =>
         Execute args w = (Abort (PanicUnknownUser name), w)
     | Some usr =>
         exists rest,
           rules (iptables (snd (Execute args w)))
           = baselineRedirect (lastGiven apisixPortOf "9080" args)
             :: baselineInboundRedirect
                  (lastGiven inboundCapturePortOf "9081" args)
             :: skipLoopbackUID (user.Uid usr)
             :: skipGID (user.Gid usr)
             :: rest
     end.
Proof.
  intros vars name.
  destruct (parseFlags_identity args newCommand) as [Hu Hg].
  assert (Hvars : vars
     = {| flagCfg :=
            {| InboundInterceptionMode :=
                 lastGiven interceptionModeOf "REDIRECT" args;
               InboundCapturePort :=
                 lastGiven inboundCapturePortOf "9081" args;
               ProxyPort := lastGiven apisixPortOf "9080" args;
               InboundPortsInclude := lastGiven inboundPortsOf "" args;
               InboundPortsExclude :=
                 lastGiven inboundExcludePortsOf "" args;
               OutboundPortsInclude := lastGiven outboundPortsOf "" args;
               OutboundPortsExclude :=
                 lastGiven outboundExcludePortsOf "" args;
               ProxyUID := "";
               ProxyGID := "";
               DryRun := lastGiven dryRunOf false args |};
          proxyUser := name |}).
  { unfold vars, parseFlags. apply fold_setFlag. }
  assert (Hname : proxyUser vars = name) by (now rewrite Hvars).
  split; [reflexivity|]. split; [exact Hvars|]. split; [exact Hname|].
  split; [exact Hu|]. split; [exact Hg|]. split; [|split].
  - intros u0. unfold Run; simpl. destruct (passwd w (proxyUser vars));
      reflexivity.
  - unfold Execute, Run. fold vars.
    destruct (passwd w (proxyUser vars)) as [usr|]; [|reflexivity].
    cbv zeta. split; [reflexivity|]. split; [reflexivity|].
    rewrite emitted_phases. split; reflexivity.
  - unfold Execute, Run. fold vars. rewrite Hname.
    destruct (passwd w name) as [usr|]; [|reflexivity].
    rewrite run_unfold, executeCommand_builder, Hvars.
    eexists. reflexivity.
Qed.

(** ** The claims at sample inputs *)

Example scenario_A_dry_run :
  stdout (snd (run (sampleConstructor "*" "9081" "" "")
                 sampleWorld))
  = [ ["iptables"; "-t"; "nat"; "-A"; "APISIX_REDIRECT";
       "-p"; "tcp"; "-j"; "REDIRECT"; "--to-ports"; "9080"];
      ["iptables"; "-t"; "nat"; "-A"; "APISIX_INBOUND_REDIRECT";
       "-p"; "tcp"; "-j"; "REDIRECT"; "--to-ports"; "9081"];
      ["iptables"; "-t"; "nat"; "-A"; "OUTPUT"; "-o"; "lo"; "!"; "-d";
       "127.0.0.1/32"; "-m"; "owner"; "--uid-owner"; "100"; "-j"; "RETURN"];
      ["iptables"; "-t"; "nat"; "-A"; "OUTPUT"; "-m"; "owner";
       "--gid-owner"; "100"; "-j"; "RETURN"];
      ["iptables"; "-t"; "nat"; "-A"; "PREROUTING";
       "-p"; "tcp"; "-j"; "APISIX_INBOUND"];
      ["iptables"; "-t"; "nat"; "-A"; "APISIX_INBOUND";
       "-p"; "tcp"; "--dport"; "22"; "-j"; "RETURN"];
      ["iptables"; "-t"; "nat"; "-A"; "APISIX_INBOUND";
       "-p"; "tcp"; "--dport"; "9081"; "-j"; "RETURN"];
      ["iptables"; "-t"; "nat"; "-A"; "APISIX_INBOUND";
       "-p"; "tcp"; "-j"; "APISIX_INBOUND_REDIRECT"] ].
Proof. vm_compute. reflexivity. Qed.

Example unknown_user_aborts :
  Execute [inbound_ports "*"; apisix_user "apisix"] sampleWorld
  = (Abort (PanicUnknownUser "apisix"), sampleWorld).
Proof. vm_compute. reflexivity. Qed.

Example default_user_runs :
  rules (iptables (snd (Execute [outbound_ports "80"; dry_run true]
                          sampleWorld)))
  = [ baselineRedirect "9080";
      baselineInboundRedirect "9081";
      skipLoopbackUID "65534";
      skipGID "65534";
      outboundJump "80" ].
Proof. vm_compute. reflexivity. Qed.

Lemma wildcard_inbound_chain_witness :
  InboundPortsInclude (cfg (sampleConstructor "*" "9081,,15000" "" "")) = "*"
  /\ filter (onChain "APISIX_INBOUND")
       (emitted (sampleConstructor "*" "9081,,15000" "" "") sampleWorld)
     = [ inboundReturn "22"; inboundReturn "9081"; inboundReturn "15000";
         inboundCatchAll ].
Proof.
  split; [reflexivity|].
  exact (proj1 (wildcard_inbound_chain
                  (sampleConstructor "*" "9081,,15000" "" "") sampleWorld
                  eq_refl)).
Defined.

Lemma explicit_inbound_chain_witness :
  InboundPortsInclude (cfg (sampleConstructor "80,443" "22" "" "")) <> ""
  /\ InboundPortsInclude (cfg (sampleConstructor "80,443" "22" "" "")) <> "*"
  /\ filter (onChain "APISIX_INBOUND")
       (emitted (sampleConstructor "80,443" "22" "" "") sampleWorld)
     = [ inboundJump "80"; inboundJump "443" ]
  /\ ~ In inboundCatchAll
         (emitted (sampleConstructor "80,443" "22" "" "") sampleWorld).
Proof.
  assert (H1 : InboundPortsInclude
                 (cfg (sampleConstructor "80,443" "22" "" "")) <> "")
    by discriminate.
  assert (H2 : InboundPortsInclude
                 (cfg (sampleConstructor "80,443" "22" "" "")) <> "*")
    by discriminate.
  split; [exact H1|]. split; [exact H2|].
  destruct (explicit_inbound_chain
              (sampleConstructor "80,443" "22" "" "") sampleWorld H1 H2)
    as [Hf [_ Hc]].
  split; [exact Hf|exact Hc].
Defined.

Lemma exclude_inert_witness :
  InboundPortsInclude (cfg (sampleConstructor "80,443" "" "53" "")) <> "*"
  /\ OutboundPortsInclude (cfg (sampleConstructor "80,443" "" "53" "")) <> "*"
  /\ emitted (withInboundPortsExclude "80"
                (sampleConstructor "80,443" "" "53" "")) sampleWorld
     = emitted (sampleConstructor "80,443" "" "53" "") sampleWorld
  /\ emitted (withOutboundPortsExclude "53"
                (sampleConstructor "80,443" "" "53" "")) sampleWorld
     = emitted (sampleConstructor "80,443" "" "53" "") sampleWorld.
Proof.
  assert (H1 : InboundPortsInclude
                 (cfg (sampleConstructor "80,443" "" "53" "")) <> "*")
    by discriminate.
  assert (H2 : OutboundPortsInclude
                 (cfg (sampleConstructor "80,443" "" "53" "")) <> "*")
    by discriminate.
  split; [exact H1|]. split; [exact H2|]. split.
  - exact (proj2 (proj1 (exclude_inert
                           (sampleConstructor "80,443" "" "53" "") "80"
                           sampleWorld) H1)).
  - exact (proj2 (proj2 (exclude_inert
                           (sampleConstructor "80,443" "" "53" "") "53"
                           sampleWorld) H2)).
Defined.

Lemma empty_include_disables_witness :
  InboundPortsInclude (cfg (sampleConstructor "" "22" "" "53")) = ""
  /\ OutboundPortsInclude (cfg (sampleConstructor "" "22" "" "53")) = ""
  /\ filter isInboundCapture
       (emitted (sampleConstructor "" "22" "" "53") sampleWorld) = []
  /\ filter isOutboundCapture
       (emitted (sampleConstructor "" "22" "" "53") sampleWorld) = [].
Proof.
  split; [reflexivity|]. split; [reflexivity|]. split.
  - exact (proj2 (proj1 (empty_include_disables
                           (sampleConstructor "" "22" "" "53") sampleWorld)
                    eq_refl)).
  - exact (proj1 (proj2 (proj2 (empty_include_disables
                                  (sampleConstructor "" "22" "" "53")
                                  sampleWorld)
                           eq_refl))).
Defined.

Lemma scenario_B_witness :
  OutboundPortsInclude (cfg (sampleConstructor "" "" "80" "")) = "80"
  /\ InboundPortsInclude (cfg (sampleConstructor "" "" "80" "")) = ""
  /\ InboundPortsExclude (cfg (sampleConstructor "" "" "80" "")) = ""
  /\ OutboundPortsExclude (cfg (sampleConstructor "" "" "80" "")) = ""
  /\ emitted (sampleConstructor "" "" "80" "") sampleWorld
     = [ baselineRedirect "9080";
         baselineInboundRedirect "9081";
         skipLoopbackUID "100";
         skipGID "100";
         outboundJump "80" ].
Proof.
  repeat (split; [reflexivity|]).
  exact (proj1 (scenario_B (sampleConstructor "" "" "80" "") sampleWorld
                  eq_refl eq_refl eq_refl eq_refl)).
Defined.

(** ** Further properties of the normalizer *)

Section NormalizerMore.

Lemma Split_comma_app (a b : string) :
  strings.Split (a ++ String comma b)%string comma
  = strings.Split a comma ++ strings.Split b comma.
Proof.
  induction a as [|c a IH]; simpl; [reflexivity|].
  destruct (Ascii.eqb c comma).
  - now rewrite IH.
  - rewrite IH. pose proof (Split_not_nil a) as Hne.
    destruct (strings.Split a comma) as [|piece pieces]; [congruence|].
    reflexivity.
Qed.

Lemma filter_idem {A} (p : A -> bool) (l : list A) :
  filter p (filter p l) = filter p l.
Proof. apply filter_all, forallb_filter_self. Qed.

End NormalizerMore.

(** X1: [filterEmpty] returns the non-empty strings of its argument, in
    their order: a string is in the result exactly when it is in the
    argument and is not empty. *)
Theorem filterEmpty_keeps_nonempty (strs : list string) :
  filterEmpty strs = filter nonEmpty strs
  /\ (forall s, In s (filterEmpty strs) <-> In s strs /\ s <> "").
Proof.
  split; [apply filterEmpty_filter|].
  intros s. rewrite filterEmpty_filter, filter_In. unfold nonEmpty.
  rewrite negb_true_iff, String.eqb_neq. reflexivity.
Qed.

(** X2: [filterEmpty] works piece by piece and changes nothing the second
    time: it distributes over concatenation, filtering twice is filtering
    once, and the result is never longer than the argument. *)
Theorem filterEmpty_compose (a b : list string) :
  filterEmpty (a ++ b) = filterEmpty a ++ filterEmpty b
  /\ filterEmpty (filterEmpty a) = filterEmpty a
  /\ List.length (filterEmpty a) <= List.length a.
Proof.
  rewrite !filterEmpty_filter. split; [apply filter_app|]. split.
  - apply filter_idem.
  - apply filter_length_le.
Qed.

(** X3: every token [split] returns is non-empty and contains no comma,
    whatever the input. *)
Theorem split_tokens_clean (s : string) :
  forallb (fun t => nonEmpty t && commaFree t) (split s) = true.
Proof.
  pose proof (split_nonEmpty s) as Hn. pose proof (split_commaFree s) as Hc.
  rewrite forallb_forall in *. intros t Ht.
  now rewrite (Hn t Ht), (Hc t Ht).
Qed.

(** X4: normalizing two lists joined by a comma gives the tokens of the
    first followed by the tokens of the second. *)
Theorem split_comma_append (a b : string) :
  split (a ++ "," ++ b)%string = split a ++ split b.
Proof.
  rewrite !split_tokens.
  change (a ++ "," ++ b)%string with (a ++ String comma b)%string.
  now rewrite Split_comma_app, filter_app.
Qed.

(** X5: joining comma-free strings with commas and normalizing the result
    gives back those strings without the empty ones. *)
Theorem split_Join_drops_empty (l : list string) :
  forallb commaFree l = true ->
  split (strings.Join l ",") = filter nonEmpty l.
Proof.
  intros Hcf. rewrite split_tokens.
  destruct l as [|t l]; [reflexivity|].
  rewrite Join_Split; [reflexivity|discriminate|exact Hcf].
Qed.

Lemma split_Join_drops_empty_witness :
  forallb commaFree ["80"; ""; "443"; ""] = true
  /\ split (strings.Join ["80"; ""; "443"; ""] ",") = ["80"; "443"].
Proof.
  split; [reflexivity|].
  exact (split_Join_drops_empty ["80"; ""; "443"; ""] eq_refl).
Defined.

(** ** Further properties of the engine *)

Section EngineMore.

Lemma outbound_capture_on_OUTPUT (c : Config) :
  forallb (onChain "OUTPUT") (outboundRules c) = true.
Proof.
  pose proof (outboundRules_capture c) as H.
  rewrite forallb_forall in *. intros r Hr. specialize (H r Hr).
  unfold isOutboundCapture in H. now apply andb_prop in H as [H _].
Qed.

Lemma inbound_off_OUTPUT (c : Config) :
  filter (onChain "OUTPUT") (inboundRules c) = [].
Proof.
  apply (filter_none _ isInboundCapture);
    [apply inbound_not_on_OUTPUT|apply inboundRules_capture].
Qed.

Lemma outbound_not_on_PREROUTING (r : Rule) :
  isOutboundCapture r = true -> onChain "PREROUTING" r = false.
Proof.
  unfold isOutboundCapture, onChain.
  intros H; apply andb_prop in H as [H _].
  apply String.eqb_eq in H. now rewrite H.
Qed.

Lemma inboundRules_wellTargeted (c : Config) :
  forallb wellTargeted (inboundRules c) = true.
Proof.
  unfold inboundRules.
  destruct (InboundPortsInclude c =? "")%string; [reflexivity|].
  destruct (InboundPortsInclude c =? "*")%string; simpl.
  - rewrite forallb_app, forallb_map_all; reflexivity.
  - apply forallb_map_all; reflexivity.
Qed.

Lemma outboundRules_wellTargeted (c : Config) :
  forallb wellTargeted (outboundRules c) = true.
Proof.
  unfold outboundRules.
  destruct (OutboundPortsInclude c =? "")%string; [reflexivity|].
  destruct (OutboundPortsInclude c =? "*")%string; simpl.
  - rewrite forallb_app, forallb_map_all; reflexivity.
  - apply forallb_map_all; reflexivity.
Qed.

(** The loop of [executeCommand] on the real backend, command by command. *)
Lemma submit_real_fail_fast (commands : list (list string)) (w : World) :
  forallb (fun cmd => negb (List.length cmd =? 0)%nat) commands = true ->
  let r := forRange commands (fun cmd =>
             match cmd with
             | [] => abort PanicIndexOutOfRange
             | cmd0 :: cmd1 =>
                 if (1 <? List.length cmd)%nat
                 then RunOrFail RealDependencies cmd0 cmd1
                 else RunOrFail RealDependencies cmd0 []
             end) w in
  fst r = match find (fun cmd => negb (succeeds w cmd)) commands with
          | None => Ok tt
          | Some cmd => Abort (FatalCommand cmd)
          end
  /\ executed (snd r)
     = executed w ++ upToFirstFailure (succeeds w) commands.
Proof.
  cbv zeta.
  revert w. induction commands as [|cmd commands IH]; intros w Hne.
  - simpl. now rewrite app_nil_r.
  - simpl in Hne. apply andb_prop in Hne as [Hcmd Hne].
    destruct cmd as [|cmd0 cmd1]; [discriminate|].
    set (w1 := {| iptables := iptables w; stdout := stdout w;
                  executed := executed w ++ [cmd0 :: cmd1];
                  succeeds := succeeds w; passwd := passwd w |}).
    cbn [forRange find upToFirstFailure].
    destruct (succeeds w (cmd0 :: cmd1)) eqn:Hs; cbn [negb].
    + assert (Hstep :
        (if (1 <? List.length (cmd0 :: cmd1))%nat
         then RunOrFail RealDependencies cmd0 cmd1
         else RunOrFail RealDependencies cmd0 []) w = (Ok tt, w1)).
      { destruct cmd1; cbn in *; rewrite Hs; reflexivity. }
      rewrite (bind_Ok _ _ _ _ Hstep).
      destruct (IH w1 Hne) as [H1 H2].
      split; [exact H1|].
      rewrite H2. simpl. now rewrite <- app_assoc.
    + assert (Hstep :
        (if (1 <? List.length (cmd0 :: cmd1))%nat
         then RunOrFail RealDependencies cmd0 cmd1
         else RunOrFail RealDependencies cmd0 []) w
        = (Abort (FatalCommand (cmd0 :: cmd1)), w1)).
      { destruct cmd1; cbn in *; rewrite Hs; reflexivity. }
      rewrite (bind_Abort _ _ _ _ _ Hstep).
      split; reflexivity.
Qed.

Lemma commands_not_empty (rs : list Rule) :
  forallb (fun cmd => negb (List.length cmd =? 0)%nat) (map commandOf rs)
  = true.
Proof. apply forallb_map_all. reflexivity. Qed.

End EngineMore.

(** X6: when the outbound include is ["*"], the rules on OUTPUT are the two
    skip rules, then one return per token of the normalized outbound exclude
    list in list order, then the catch-all jump to the redirect chain. *)
Theorem wildcard_outbound_chain (ic : iptablesConstructor) (w : World) :
  OutboundPortsInclude (cfg ic) = "*" ->
  filter (onChain "OUTPUT") (emitted ic w)
  = skipLoopbackUID (ProxyUID (cfg ic))
    :: skipGID (ProxyGID (cfg ic))
    :: map outboundReturn (split (OutboundPortsExclude (cfg ic)))
    ++ [outboundCatchAll].
Proof.
  intros Hinc. rewrite emitted_phases. simpl.
  rewrite filter_app, inbound_off_OUTPUT.
  rewrite (filter_all _ _ (outbound_capture_on_OUTPUT (cfg ic))).
  unfold outboundRules. now rewrite Hinc.
Qed.

Lemma wildcard_outbound_chain_witness :
  OutboundPortsInclude (cfg (sampleConstructor "80" "" "*" "53,,123")) = "*"
  /\ filter (onChain "OUTPUT")
       (emitted (sampleConstructor "80" "" "*" "53,,123") sampleWorld)
     = [ skipLoopbackUID "100"; skipGID "100"; outboundReturn "53";
         outboundReturn "123"; outboundCatchAll ].
Proof.
  split; [reflexivity|].
  exact (wildcard_outbound_chain
           (sampleConstructor "80" "" "*" "53,,123") sampleWorld eq_refl).
Defined.

(** X7: when the outbound include is an explicit list (neither empty nor
    ["*"]), the rules on OUTPUT are the two skip rules, then one jump to the
    redirect chain per token of the normalized list, in list order; the
    outbound exclude list plays no part and the catch-all jump to the
    redirect chain is not emitted. *)
Theorem explicit_outbound_chain (ic : iptablesConstructor) (w : World) :
  OutboundPortsInclude (cfg ic) <> "" ->
  OutboundPortsInclude (cfg ic) <> "*" ->
  filter (onChain "OUTPUT") (emitted ic w)
  = skipLoopbackUID (ProxyUID (cfg ic))
    :: skipGID (ProxyGID (cfg ic))
    :: map outboundJump (split (OutboundPortsInclude (cfg ic)))
  /\ ~ In outboundCatchAll (emitted ic w).
Proof.
  intros Hne Hnw.
  assert (Hf : filter (onChain "OUTPUT") (emitted ic w)
               = skipLoopbackUID (ProxyUID (cfg ic))
                 :: skipGID (ProxyGID (cfg ic))
                 :: map outboundJump (split (OutboundPortsInclude (cfg ic)))).
  { rewrite emitted_phases. simpl.
    rewrite filter_app, inbound_off_OUTPUT.
    rewrite (filter_all _ _ (outbound_capture_on_OUTPUT (cfg ic))).
    unfold outboundRules.
    apply String.eqb_neq in Hne, Hnw. now rewrite Hne, Hnw. }
  split; [exact Hf|].
  intros Hin.
  assert (Hin' : In outboundCatchAll
                   (filter (onChain "OUTPUT") (emitted ic w))).
  { apply filter_In. split; [exact Hin|reflexivity]. }
  rewrite Hf in Hin'.
  destruct Hin' as [Heq|[Heq|Hin']]; [discriminate Heq|discriminate Heq|].
  apply in_map_iff in Hin' as [port [Heq _]]. discriminate Heq.
Qed.

Lemma explicit_outbound_chain_witness :
  OutboundPortsInclude (cfg (sampleConstructor "" "" "80,8080" "80")) <> ""
  /\ OutboundPortsInclude (cfg (sampleConstructor "" "" "80,8080" "80"))
     <> "*"
  /\ filter (onChain "OUTPUT")
       (emitted (sampleConstructor "" "" "80,8080" "80") sampleWorld)
     = [ skipLoopbackUID "100"; skipGID "100"; outboundJump "80";
         outboundJump "8080" ].
Proof.
  assert (H1 : OutboundPortsInclude
                 (cfg (sampleConstructor "" "" "80,8080" "80")) <> "")
    by discriminate.
  assert (H2 : OutboundPortsInclude
                 (cfg (sampleConstructor "" "" "80,8080" "80")) <> "*")
    by discriminate.
  split; [exact H1|]. split; [exact H2|].
  exact (proj1 (explicit_outbound_chain
                  (sampleConstructor "" "" "80,8080" "80") sampleWorld
                  H1 H2)).
Defined.

(** X8: the PREROUTING jump into the inbound chain is emitted once when the
    inbound include is not empty and not at all when it is; it comes right
    after the skip rules, ahead of every other inbound rule, and no other
    rule is on PREROUTING. *)
Theorem prerouting_jump_once (ic : iptablesConstructor) (w : World) :
  exists rest,
    emitted ic w
    = baselineRedirect (ProxyPort (cfg ic))
      :: baselineInboundRedirect (InboundCapturePort (cfg ic))
      :: skipLoopbackUID (ProxyUID (cfg ic))
      :: skipGID (ProxyGID (cfg ic))
      :: (if (InboundPortsInclude (cfg ic) =? "")%string then []
          else [preroutingJump])
      ++ rest
    /\ filter (onChain "PREROUTING") rest = []
    /\ filter (onChain "PREROUTING") (emitted ic w)
       = if (InboundPortsInclude (cfg ic) =? "")%string then []
         else [preroutingJump].
Proof.
  pose proof (filter_none (onChain "PREROUTING") isOutboundCapture
                (outboundRules (cfg ic)) outbound_not_on_PREROUTING
                (outboundRules_capture (cfg ic))) as Hout.
  rewrite emitted_phases. unfold inboundRules.
  destruct (InboundPortsInclude (cfg ic) =? "")%string.
  - exists (outboundRules (cfg ic)). simpl. now rewrite Hout.
  - destruct (InboundPortsInclude (cfg ic) =? "*")%string.
    + exists ((inboundReturn "22"
               :: map inboundReturn (split (InboundPortsExclude (cfg ic)))
               ++ [inboundCatchAll]) ++ outboundRules (cfg ic)).
      assert (Hin : filter (onChain "PREROUTING")
                      (map inboundReturn
                         (split (InboundPortsExclude (cfg ic)))) = []).
      { apply (filter_none _ (onChain "APISIX_INBOUND")).
        - intros r Hr. unfold onChain in *. apply String.eqb_eq in Hr.
          now rewrite Hr.
        - apply forallb_map_all. reflexivity. }
      simpl. rewrite !filter_app, Hin, Hout. repeat split; reflexivity.
    + exists (map inboundJump (split (InboundPortsInclude (cfg ic)))
              ++ outboundRules (cfg ic)).
      assert (Hin : filter (onChain "PREROUTING")
                      (map inboundJump
                         (split (InboundPortsInclude (cfg ic)))) = []).
      { apply (filter_none _ (onChain "APISIX_INBOUND")).
        - intros r Hr. unfold onChain in *. apply String.eqb_eq in Hr.
          now rewrite Hr.
        - apply forallb_map_all. reflexivity. }
      simpl. rewrite !filter_app, Hin, Hout. repeat split; reflexivity.
Qed.

(** X9: [run] only appends: whatever the builder holds when [run] starts is
    still there afterwards, in the same order, followed by the rules [run]
    derives from the configuration. *)
Theorem run_only_appends (ic : iptablesConstructor) (w : World) :
  rules (iptables (snd (run ic w))) = rules (iptables w) ++ emitted ic w.
Proof.
  rewrite emitted_phases, run_unfold, executeCommand_builder. reflexivity.
Qed.

(** X10: the derived rules depend on the configuration only: neither the
    backend chosen nor anything in the host (which commands succeed, which
    users exist, what was printed or executed before) changes them. *)
Theorem rules_independent_of_backend (c : Config) (d d' : Dependencies)
    (w w' : World) :
  emitted {| cfg := c; dep := d |} w = emitted {| cfg := c; dep := d' |} w'.
Proof. now rewrite !emitted_phases. Qed.

(** X11: the inbound interception mode is never read: changing it changes
    neither the rules derived nor anything else [run] does. *)
Theorem interception_mode_inert (ic : iptablesConstructor) (m : string)
    (w : World) :
  run (withInterceptionMode m ic) w = run ic w
  /\ emitted (withInterceptionMode m ic) w = emitted ic w.
Proof.
  split.
  - rewrite !run_unfold. reflexivity.
  - rewrite !emitted_phases. reflexivity.
Qed.

(** X12: inbound and outbound capture never cross: every emitted rule of the
    inbound chain returns or jumps to the inbound-redirect chain, every
    emitted rule of OUTPUT returns or jumps to the redirect chain, and every
    emitted rule of PREROUTING jumps to the inbound chain. *)
Theorem capture_paths_separate (ic : iptablesConstructor) (w : World) :
  forallb wellTargeted (emitted ic w) = true.
Proof.
  rewrite emitted_phases. simpl.
  now rewrite forallb_app, inboundRules_wellTargeted,
    outboundRules_wellTargeted.
Qed.

(** X13: on the real backend the commands of the emitted rules are run in
    order and the run stops at the first one the host rejects: the commands
    executed are those up to and including that one, the outcome is the
    fatal failure of that command, or success when none is rejected, and
    nothing is printed. *)
Theorem real_run_fail_fast (c : Config) (w : World) :
  let ic := {| cfg := c; dep := RealDependencies |} in
  let r := run ic (withBuilder (NewIptablesBuilder c) w) in
  let commands := map commandOf (emitted ic w) in
  fst r = match find (fun cmd => negb (succeeds w cmd)) commands with
          | None => Ok tt
          | Some cmd => Abort (FatalCommand cmd)
          end
  /\ executed (snd r) = executed w ++ upToFirstFailure (succeeds w) commands
  /\ stdout (snd r) = stdout w.
Proof.
  intros ic r commands. unfold r. rewrite run_unfold.
  unfold executeCommand. set (w1 := emit _ _).
  assert (Hb : BuildV4 (iptables w1) = commands).
  { unfold w1, commands. rewrite <- (emitted_phases ic w).
    change (BuildV4 {| rules := emitted ic w |}
            = map commandOf (emitted ic w)).
    apply BuildV4_natV4, emitted_natV4. }
  rewrite Hb.
  destruct (submit_real_fail_fast commands w1 (commands_not_empty _))
    as [H1 H2].
  split; [exact H1|]. split; [exact H2|].
  apply (submit_real commands w1).
Qed.

(** X14: with the dry-run flag set, nothing is ever handed to the host: the
    list of executed commands is left as it was, and the process either
    ends normally or panics on the unknown user. *)
Theorem dry_run_never_executes (args : list Flag) (w : World) :
  DryRun (flagCfg (parseFlags args)) = true ->
  executed (snd (Execute args w)) = executed w
  /\ (fst (Execute args w) = Ok tt
      \/ fst (Execute args w)
         = Abort (PanicUnknownUser (proxyUser (parseFlags args)))).
Proof.
  intros Hdry. unfold Execute, Run. rewrite Hdry.
  destruct (passwd w (proxyUser (parseFlags args))) as [usr|].
  - rewrite run_unfold. unfold executeCommand. cbn [dep].
    set (w1 := emit _ _).
    destruct (submit_dry_run (BuildV4 (iptables w1)) w1) as [H1 [_ H3]].
    { apply commands_not_empty. }
    split; [exact H3|left; exact H1].
  - split; [reflexivity|right; reflexivity].
Qed.

Lemma dry_run_never_executes_witness :
  DryRun (flagCfg (parseFlags [dry_run true; inbound_ports "*"])) = true
  /\ executed (snd (Execute [dry_run true; inbound_ports "*"] sampleWorld))
     = executed sampleWorld.
Proof.
  split; [reflexivity|].
  exact (proj1 (dry_run_never_executes [dry_run true; inbound_ports "*"]
                  sampleWorld eq_refl)).
Defined.

Example last_apisix_user_is_looked_up :
  proxyUser (parseFlags [apisix_user "apisix"; inbound_ports "80";
                         apisix_user "nobody"; outbound_ports "443"])
  = "nobody"
  /\ proxyUser (parseFlags [inbound_ports "80"; outbound_ports "443";
                            dry_run true]) = "nobody"
  /\ proxyUser (parseFlags [apisix_user "nobody"; inbound_ports "80";
                            apisix_user "apisix"]) = "apisix".
Proof. repeat split; reflexivity. Qed.

Example last_apisix_user_decides :
  Execute [apisix_user "nobody"; inbound_ports "*"; apisix_user "apisix"]
    sampleWorld
  = (Abort (PanicUnknownUser "apisix"), sampleWorld)
  /\ rules (iptables
              (snd (Execute [apisix_user "apisix"; dry_run true;
                             apisix_user "nobody"] sampleWorld)))
     = [ baselineRedirect "9080";
         baselineInboundRedirect "9081";
         skipLoopbackUID "65534";
         skipGID "65534" ].
Proof. split; vm_compute; reflexivity. Qed.
